(** * scripts/cleanup-test-data.py: the cleanup run and its properties

    The script logs in, lists the projects, keeps every project whose id is
    not the seeded one, sends one DELETE per kept project and prints what
    happened.  It is modelled as a program in a small trace-and-exception
    monad that runs against an arbitrary service: the service decides the
    reply to every request from the requests it has seen so far.

    The trace records every request handed to [urlopen] and every line
    handed to [print], in order.  A run ends normally or with the exception
    that nothing caught; the interpreter turns the latter into a traceback
    and a non-zero exit status.

    What the model leaves out: [print] is taken not to raise; [urlopen]
    raises only subclasses of [Exception], so an interrupt of the process is
    not a reply; leaving a [with] block only closes the response. *)

From stdpp Require Import base strings list gmap pretty.

#[local] Set Warnings "-register-all".

(** ** Values decoded by [json.load] *)

Inductive pyval :=
| PNone
| PBool (b : bool)
| PInt (z : Z)
| PFloat (lit : string)
| PStr (s : string)
| PList (l : list pyval)
| PDict (d : gmap string pyval).

(** ** Exceptions and results *)

Inductive exn :=
| RequestError (msg : string)
| JSONDecodeError (msg : string)
| KeyError (key : string)
| TypeError (msg : string).

Inductive result (A : Type) :=
| Ok (a : A)
| Raise (e : exn).
Arguments Ok {A} a.
Arguments Raise {A} e.

Definition rbind {A B} (r : result A) (k : A → result B) : result B :=
  match r with
  | Ok a => k a
  | Raise e => Raise e
  end.

Notation "'try!' x := r 'in' k" := (rbind r (λ x, k))
  (at level 10, x name, r at level 100, k at level 200,
   format "'[v' 'try!'  x  :=  r  'in' '/' k ']'").

(** [str(e)], as the failure line prints it. *)
Definition exn_str (e : exn) : string :=
  match e with
  | RequestError m => m
  | JSONDecodeError m => m
  | KeyError k => "'" +:+ k +:+ "'"
  | TypeError m => m
  end.

(** ** The operations of Python the script applies to decoded values *)

(** [v[key]] with a string key. *)
Definition getitem (v : pyval) (key : string) : result pyval :=
  match v with
  | PDict d =>
      match d !! key with
      | Some x => Ok x
      | None => Raise (KeyError key)
      end
  | PList _ => Raise (TypeError "list indices must be integers or slices, not str")
  | PStr _ => Raise (TypeError "string indices must be integers, not 'str'")
  | PNone => Raise (TypeError "'NoneType' object is not subscriptable")
  | PBool _ => Raise (TypeError "'bool' object is not subscriptable")
  | PInt _ => Raise (TypeError "'int' object is not subscriptable")
  | PFloat _ => Raise (TypeError "'float' object is not subscriptable")
  end.

(** [v != s] for a string literal [s]: only a string can be equal to it. *)
Definition ne_str (v : pyval) (s : string) : bool :=
  match v with
  | PStr t => bool_decide (t ≠ s)
  | _ => true
  end.

(** The items [for p in v] visits.  A dict yields its keys and a string its
    characters; both are strings, which is all the script can observe of
    them, since subscripting a string with ["id"] raises. *)
Definition py_iter (v : pyval) : result (list pyval) :=
  match v with
  | PList l => Ok l
  | PDict d => Ok (PStr <$> (map_to_list d).*1)
  | PStr s => Ok ((λ c, PStr (String c "")) <$> String.list_ascii_of_string s)
  | PNone => Raise (TypeError "'NoneType' object is not iterable")
  | PBool _ => Raise (TypeError "'bool' object is not iterable")
  | PInt _ => Raise (TypeError "'int' object is not iterable")
  | PFloat _ => Raise (TypeError "'float' object is not iterable")
  end.

(** ** Requests, replies and the trace of a run *)

Record Request := mkRequest {
  url : string;
  data : option string;
  headers : list (string * string);
  method : option string
}.

(** [Request.get_method]. *)
Definition get_method (r : Request) : string :=
  match method r with
  | Some m => m
  | None => if data r is Some _ then "POST" else "GET"
  end.

(** What came back: the body is either text that [json.load] rejects or the
    value it decodes to. *)
Inductive body :=
| Malformed (err : string)
| Json (v : pyval).

Inductive reply :=
| Raises (msg : string)
| Responds (b : body).

Inductive event :=
| Http (r : Request)
| Print (line : string).

Definition requests (t : list event) : list Request :=
  omap (λ e, match e with Http r => Some r | Print _ => None end) t.

Definition output (t : list event) : list string :=
  omap (λ e, match e with Print s => Some s | Http _ => None end) t.

(** ** The monad of the script: a trace of events, and exceptions *)

Definition M (A : Type) : Type := list event → list event * result A.

Definition ret {A} (a : A) : M A := λ t, (t, Ok a).

Definition bind {A B} (c : M A) (k : A → M B) : M B :=
  λ t, match c t with
       | (t', Ok a) => k a t'
       | (t', Raise e) => (t', Raise e)
       end.

Definition lift {A} (r : result A) : M A := λ t, (t, r).

Definition print (line : string) : M unit := λ t, (t ++ [Print line], Ok tt).

(** [try: c  except Exception as e: h e] *)
Definition try_except {A} (c : M A) (h : exn → M A) : M A :=
  λ t, match c t with
       | (t', Raise e) => h e t'
       | r => r
       end.

Notation "'let!' x := c 'in' k" := (bind c (λ x, k))
  (at level 10, x name, c at level 100, k at level 200,
   format "'[v' 'let!'  x  :=  c  'in' '/' k ']'").
Notation "c ;;; k" := (bind c (λ _, k))
  (at level 100, k at level 200, right associativity).

Fixpoint for_each {A} (l : list A) (f : A → M unit) : M unit :=
  match l with
  | [] => ret tt
  | x :: l' => f x ;;; for_each l' f
  end.

(** ** The script *)

Definition BASE : string := "http://localhost:3002".

Definition SEED_ID : string := "test-project-id".

Definition dquote : string := String (Ascii.ascii_of_nat 34) "".

(** [json.dumps] of a dict with string keys and string values that need no
    escaping, the only use the script makes of it. *)
Definition json_dumps (kv : list (string * string)) : string :=
  let q s := dquote +:+ s +:+ dquote in
  "{" +:+ String.concat ", " ((λ p, q p.1 +:+ ": " +:+ q p.2) <$> kv) +:+ "}".

Definition json_load (b : body) : result pyval :=
  match b with
  | Malformed err => Raise (JSONDecodeError err)
  | Json v => Ok v
  end.

(** [\[p for p in items if p\["id"\] != "test-project-id"\]] over a list. *)
Fixpoint keep_non_seeded (items : list pyval) : result (list pyval) :=
  match items with
  | [] => Ok []
  | p :: rest =>
      try! pid := getitem p "id" in
      try! kept := keep_non_seeded rest in
      Ok (if ne_str pid SEED_ID then p :: kept else kept)
  end.

Definition comprehension (projects : pyval) : result (list pyval) :=
  try! items := py_iter projects in
  keep_non_seeded items.

(** What [urlopen] hands back for a reply: the response, or the exception
    the reply stands for. *)
Definition opened (r : reply) : result body :=
  match r with
  | Raises msg => Raise (RequestError msg)
  | Responds b => Ok b
  end.

Section Script.

(** [repr] of a float, list or dict is left to the interpreter. *)
Variable py_repr : pyval → string.

(** The service: its reply to a request, given the requests before it. *)
Variable service : list Request → Request → reply.

(** [f"{v}"] *)
Definition format (v : pyval) : string :=
  match v with
  | PStr s => s
  | PNone => "None"
  | PBool true => "True"
  | PBool false => "False"
  | PInt z => pretty z
  | PFloat _ | PList _ | PDict _ => py_repr v
  end.

Definition urlopen (req : Request) : M body :=
  λ t, (t ++ [Http req], opened (service (requests t) req)).

Definition login_request : Request :=
  mkRequest (BASE +:+ "/auth/login")
            (Some (json_dumps [("email", "test@test.com"); ("password", "test")]))
            [("Content-Type", "application/json")]
            None.

Definition bearer (token : pyval) : list (string * string) :=
  [("Authorization", "Bearer " +:+ format token)].

Definition list_request (token : pyval) : Request :=
  mkRequest (BASE +:+ "/projects") None (bearer token) None.

Definition delete_request (token pid : pyval) : Request :=
  mkRequest (BASE +:+ "/projects/" +:+ format pid) None (bearer token) (Some "DELETE").

Definition deleted_line (name pid : pyval) : string :=
  "  Deleted: " +:+ format name +:+ " (" +:+ format pid +:+ ")".

Definition failed_line (name : pyval) (e : exn) : string :=
  "  Failed to delete " +:+ format name +:+ ": " +:+ exn_str e.

Definition found_line (n : nat) : string :=
  "Found " +:+ pretty n +:+ " non-seeded projects to clean up".

(** The body of [for p in to_delete]. *)
Definition delete_one (token p : pyval) : M unit :=
  let! pid := lift (getitem p "id") in
  let! name := lift (getitem p "name") in
  let req := delete_request token pid in
  try_except
    (let! resp := urlopen req in
     print (deleted_line name pid))
    (λ e, print (failed_line name e)).

Definition main : M unit :=
  let req := login_request in
  let! resp := urlopen req in
  let! login := lift (json_load resp) in
  let! token := lift (getitem login "token") in
  let req := list_request token in
  let! resp := urlopen req in
  let! projects := lift (json_load resp) in
  let! to_delete := lift (comprehension projects) in
  print (found_line (length to_delete)) ;;;
  for_each to_delete (delete_one token) ;;;
  print "Cleanup complete".

(** A run starts with an empty trace; an uncaught exception ends it. *)
Definition run : list event * result unit := main [].

(** *** What the service made of the first two steps *)

(** The token the login step ends with, or the exception that ends it. *)
Definition login_result : result pyval :=
  try! resp := opened (service [] login_request) in
  try! login := json_load resp in
  getitem login "token".

(** The decoded body of the listing step, or the exception that ends it. *)
Definition listing_body (token : pyval) : result pyval :=
  try! resp := opened (service [login_request] (list_request token)) in
  json_load resp.

(** The line the loop prints for a project, given the outcome of its
    request. *)
Definition outcome_line (name pid : pyval) (r : result body) : string :=
  match r with
  | Ok _ => deleted_line name pid
  | Raise e => failed_line name e
  end.

End Script.

(** ** Vocabulary of the statements *)

Definition has_id (p : pyval) : Prop := ∃ pid, getitem p "id" = Ok pid.

Definition has_name (p : pyval) : Prop := ∃ name, getitem p "name" = Ok name.

(** The record is the seeded project. *)
Definition is_seed (p : pyval) : Prop := getitem p "id" = Ok (PStr SEED_ID).

Global Instance is_seed_dec p : Decision (is_seed p).
Proof.
  unfold is_seed.
  destruct p as [| | | | |l|d]; simpl; try (right; discriminate).
  destruct (d !! "id") as [[| | | |s| |]|]; try (right; discriminate).
  destruct (decide (s = SEED_ID)) as [->|Hne]; [by left|].
  right. intros [= Heq]. by apply Hne.
Defined.

(** The filter as the specification words it: the sub-sequence of the
    records whose id is not the seeded one. *)
Definition non_seeded (listing : list pyval) : list pyval :=
  filter (λ p, ¬ is_seed p) listing.

(** [r] is the DELETE the loop builds for project [p]. *)
Definition deletes (py_repr : pyval → string) (token p : pyval) (r : Request) : Prop :=
  ∃ pid, getitem p "id" = Ok pid ∧ r = delete_request py_repr token pid.

(** Success or the exception raised, whatever the body. *)
Definition outcome (r : reply) : option string :=
  match r with
  | Raises msg => Some msg
  | Responds _ => None
  end.

(** One turn of the loop as the trace shows it: the request, then the line
    printed about it. *)
Fixpoint steps_events (steps : list (Request * string)) : list event :=
  match steps with
  | [] => []
  | s :: rest => Http s.1 :: Print s.2 :: steps_events rest
  end.

(** Step [s] is the turn of the loop on project [p], taken when the service
    had seen the requests [hist]: the request is the DELETE of [p], and the
    line is the success line if the service responded to it and the failure
    line with its error if it raised. *)
Definition reports (py_repr : pyval → string)
    (service : list Request → Request → reply)
    (token : pyval) (hist : list Request) (p : pyval) (s : Request * string) : Prop :=
  ∃ pid name,
    getitem p "id" = Ok pid ∧ getitem p "name" = Ok name ∧
    s.1 = delete_request py_repr token pid ∧
    s.2 = match service hist s.1 with
          | Responds _ => deleted_line py_repr name pid
          | Raises msg => failed_line py_repr name (RequestError msg)
          end.

(** What a run that reached the loop prints last. *)
Definition closing (res : result unit) : list event :=
  match res with
  | Ok _ => [Print "Cleanup complete"]
  | Raise _ => []
  end.

(** A JSON value that is neither an object, nor an array, nor a string. *)
Definition is_scalar (v : pyval) : Prop :=
  match v with
  | PNone | PBool _ | PInt _ | PFloat _ => True
  | PStr _ | PList _ | PDict _ => False
  end.

Definition is_object (v : pyval) : Prop :=
  match v with
  | PDict _ => True
  | _ => False
  end.

(** ** Sample data *)

Definition record (i n : string) : pyval :=
  PDict {[ "id" := PStr i; "name" := PStr n ]}.

Definition scenario : list pyval :=
  [record "test-project-id" "Seed"; record "p1" "A"; record "p2" "B"].

Definition sample_repr (v : pyval) : string := "<object>".

(** A service that answers the first request with [login], the second with
    [listing] and every later one as [later] says. *)
Definition scripted (login listing : reply)
    (later : list Request → Request → reply) : list Request → Request → reply :=
  λ hist r,
    match hist with
    | [] => login
    | [_] => listing
    | _ => later hist r
    end.

Definition token_reply (tok : string) : reply :=
  Responds (Json (PDict {[ "token" := PStr tok ]})).

Definition listing_reply (listing : list pyval) : reply :=
  Responds (Json (PList listing)).

Definition no_content : reply := Responds (Malformed "").

Definition refused : reply := Raises "HTTP Error 500: Internal Server Error".

(** Logs in, lists [scenario], refuses the DELETE of p1, accepts the rest. *)
Definition sample_service : list Request → Request → reply :=
  scripted (token_reply "tok") (listing_reply scenario)
    (λ _ r, if bool_decide (url r = BASE +:+ "/projects/p1") then refused else no_content).

(** Answers like [sample_service] as far as the script can tell: the login
    body has one more key and an accepted DELETE has a JSON body. *)
Definition sample_service_bis : list Request → Request → reply :=
  scripted (Responds (Json (PDict {[ "token" := PStr "tok"; "user" := PStr "test" ]})))
    (listing_reply scenario)
    (λ _ r, if bool_decide (url r = BASE +:+ "/projects/p1")
            then refused else Responds (Json PNone)).

(** The same, but every DELETE is refused. *)
Definition refusing_service : list Request → Request → reply :=
  scripted (token_reply "tok") (listing_reply scenario) (λ _ _, refused).

(** Only the seeded project is listed. *)
Definition seed_only_service : list Request → Request → reply :=
  scripted (token_reply "tok") (listing_reply [record "test-project-id" "Seed"])
    (λ _ _, no_content).

(** The login is rejected. *)
Definition locked_service : list Request → Request → reply :=
  scripted (Raises "HTTP Error 401: Unauthorized") (listing_reply scenario)
    (λ _ _, no_content).

(** The listing comes back as text that is not JSON. *)
Definition unlistable_service : list Request → Request → reply :=
  scripted (token_reply "tok") (Responds (Malformed "Expecting value"))
    (λ _ _, no_content).

(** The second listed project has no name. *)
Definition nameless_service : list Request → Request → reply :=
  scripted (token_reply "tok")
    (listing_reply [record "p1" "A"; PDict {[ "id" := PStr "p2" ]}; record "p3" "C"])
    (λ _ _, no_content).

(** The listing comes wrapped in an object. *)
Definition wrapped_service : list Request → Request → reply :=
  scripted (token_reply "tok")
    (Responds (Json (PDict {[ "projects" := PList scenario ]})))
    (λ _ _, no_content).

(** The login answers with a JSON array. *)
Definition array_login_service : list Request → Request → reply :=
  scripted (Responds (Json (PList [PStr "tok"]))) (listing_reply scenario)
    (λ _ _, no_content).

(** The seeded project comes without a name, and p1 is listed twice. *)
Definition bare_seed_service : list Request → Request → reply :=
  scripted (token_reply "tok")
    (listing_reply [PDict {[ "id" := PStr "test-project-id" ]};
                    record "p1" "A"; record "p1" "A"])
    (λ _ _, no_content).

(** ** The filter *)

Lemma ne_str_false v s : ne_str v s = false ↔ v = PStr s.
Proof.
  destruct v; simpl; try (split; discriminate).
  rewrite bool_decide_eq_false. split.
  - intros H. f_equal. by destruct (decide (s0 = s)).
  - intros [= ->] H. by apply H.
Qed.

Lemma ne_str_true v s : ne_str v s = true ↔ v ≠ PStr s.
Proof.
  rewrite <- ne_str_false. destruct (ne_str v s); split; congruence.
Qed.

Lemma keep_non_seeded_cons p pid rest :
  getitem p "id" = Ok pid →
  keep_non_seeded (p :: rest) =
    try! kept := keep_non_seeded rest in
    Ok (if ne_str pid SEED_ID then p :: kept else kept).
Proof. intros H. simpl. by rewrite H. Qed.

Lemma non_seeded_cons p pid rest :
  getitem p "id" = Ok pid →
  non_seeded (p :: rest) =
    if ne_str pid SEED_ID then p :: non_seeded rest else non_seeded rest.
Proof.
  intros H. unfold non_seeded. rewrite filter_cons.
  destruct (ne_str pid SEED_ID) eqn:E.
  - apply ne_str_true in E. rewrite decide_True; [done|].
    unfold is_seed. rewrite H. congruence.
  - apply ne_str_false in E. subst pid. rewrite decide_False; [done|].
    intros Hn. by apply Hn.
Qed.

Lemma keep_non_seeded_total listing :
  Forall has_id listing → keep_non_seeded listing = Ok (non_seeded listing).
Proof.
  induction 1 as [|p rest [pid Hp] _ IH]; [done|].
  rewrite (keep_non_seeded_cons _ _ _ Hp), IH. simpl.
  by rewrite (non_seeded_cons _ _ _ Hp).
Qed.

Lemma keep_non_seeded_inv items kept :
  keep_non_seeded items = Ok kept → Forall has_id items ∧ kept = non_seeded items.
Proof.
  revert kept. induction items as [|p rest IH]; intros kept; simpl.
  - intros [= <-]. by split.
  - destruct (getitem p "id") as [pid|] eqn:Hp; simpl; [|discriminate].
    destruct (keep_non_seeded rest) as [kept'|]; simpl; [|discriminate].
    intros [= <-]. destruct (IH _ eq_refl) as [Hall ->]. split.
    + constructor; [by exists pid | done].
    + by rewrite (non_seeded_cons _ _ _ Hp).
Qed.

Lemma non_seeded_elem p listing :
  p ∈ non_seeded listing ↔ p ∈ listing ∧ getitem p "id" ≠ Ok (PStr SEED_ID).
Proof. unfold non_seeded. rewrite list_elem_of_filter. unfold is_seed. tauto. Qed.

(** Every project the comprehension keeps has an id, and it is not the
    seeded one. *)
Lemma comprehension_kept projects to_delete :
  comprehension projects = Ok to_delete →
  Forall (λ p, ∃ pid, getitem p "id" = Ok pid ∧ pid ≠ PStr SEED_ID) to_delete.
Proof.
  unfold comprehension. destruct (py_iter projects) as [items|]; simpl; [|discriminate].
  intros H. apply keep_non_seeded_inv in H as [Hall ->].
  apply Forall_forall. intros p Hp. apply non_seeded_elem in Hp as [Hin Hne].
  rewrite Forall_forall in Hall. destruct (Hall _ Hin) as [pid Hpid].
  exists pid. split; [done|]. intros ->. by apply Hne.
Qed.

(** C2.  The comprehension is a function of the listing alone.  On a
    listing of project records, each with an id, it returns exactly the
    records whose id is not "test-project-id": every such record is kept,
    every record with that id is dropped, the kept records stand in the
    order of the listing, and evaluating it leaves the trace of the run as
    it was. *)
Theorem filter_is_non_seeded_subsequence (listing : list pyval) :
  Forall has_id listing →
  comprehension (PList listing) = Ok (non_seeded listing) ∧
  non_seeded listing `sublist_of` listing ∧
  (∀ p, p ∈ non_seeded listing ↔
        p ∈ listing ∧ getitem p "id" ≠ Ok (PStr SEED_ID)) ∧
  (∀ t, lift (comprehension (PList listing)) t = (t, Ok (non_seeded listing))).
Proof.
  intros Hall.
  assert (comprehension (PList listing) = Ok (non_seeded listing)) as Hc
    by (unfold comprehension; simpl; by apply keep_non_seeded_total).
  split; [done|]. split; [apply sublist_filter|].
  split; [intros p; apply non_seeded_elem|].
  intros t. unfold lift. by rewrite Hc.
Qed.

(** ** The trace of a run *)

Arguments login_request : simpl never.
Arguments list_request : simpl never.
Arguments delete_request : simpl never.
Arguments found_line : simpl never.
Arguments deleted_line : simpl never.
Arguments failed_line : simpl never.
Arguments format : simpl never.

Lemma requests_app t1 t2 : requests (t1 ++ t2) = requests t1 ++ requests t2.
Proof. apply omap_app. Qed.

Lemma for_each_cons {A} (x : A) l f t :
  for_each (x :: l) f t =
    match f x t with
    | (t', Ok _) => for_each l f t'
    | (t', Raise e) => (t', Raise e)
    end.
Proof. reflexivity. Qed.

Lemma for_each_app {A} (l1 l2 : list A) f t :
  for_each (l1 ++ l2) f t =
    match for_each l1 f t with
    | (t', Ok _) => for_each l2 f t'
    | (t', Raise e) => (t', Raise e)
    end.
Proof.
  revert t. induction l1 as [|x l1 IH]; intros t; [done|].
  rewrite <- app_comm_cons, !for_each_cons.
  destruct (f x t) as [t' [[]|e]]; [apply IH | done].
Qed.

Section Run.

Variable py_repr : pyval → string.
Variable service : list Request → Request → reply.

Local Abbreviation list_request := (list_request py_repr).
Local Abbreviation delete_request := (delete_request py_repr).
Local Abbreviation one_turn := (delete_one py_repr service).
Local Abbreviation deletes := (deletes py_repr).
Local Abbreviation the_run := (run py_repr service).

(** One turn of the loop on a record that has both keys: the request goes
    out, and one line reports how it went. *)
Lemma delete_one_attempt token p pid name t :
  getitem p "id" = Ok pid → getitem p "name" = Ok name →
  one_turn token p t =
    (t ++ [Http (delete_request token pid);
           Print (outcome_line py_repr name pid
                    (opened (service (requests t) (delete_request token pid))))],
     Ok tt).
Proof.
  intros Hid Hname.
  unfold delete_one, bind, lift, try_except, urlopen, print.
  rewrite Hid, Hname.
  destruct (opened _) as [b|e]; simpl; by rewrite <- app_assoc.
Qed.

(** One turn of the loop on a record without a name: nothing goes out. *)
Lemma delete_one_no_name token p pid e t :
  getitem p "id" = Ok pid → getitem p "name" = Raise e →
  one_turn token p t = (t, Raise e).
Proof.
  intros Hid Hname.
  unfold delete_one, bind, lift. by rewrite Hid, Hname.
Qed.

Lemma delete_one_no_id token p e t :
  getitem p "id" = Raise e → one_turn token p t = (t, Raise e).
Proof.
  intros Hid. unfold delete_one, bind, lift. by rewrite Hid.
Qed.

(** Whatever the record, a turn only appends to the trace, and a request
    it appends is the DELETE of that record. *)
Lemma delete_one_extends token p t :
  ∃ evs, (one_turn token p t).1 = t ++ evs ∧
         ∀ r, r ∈ requests evs → deletes token p r.
Proof.
  destruct (getitem p "id") as [pid|e] eqn:Hid.
  - destruct (getitem p "name") as [name|e] eqn:Hname.
    + rewrite (delete_one_attempt _ _ _ _ _ Hid Hname). eexists. split; [done|].
      simpl. intros r ->%list_elem_of_singleton. by exists pid.
    + rewrite (delete_one_no_name _ _ _ _ _ Hid Hname). exists [].
      split; [by rewrite app_nil_r | by intros r ?%elem_of_nil].
  - rewrite (delete_one_no_id _ _ _ _ Hid). exists [].
    split; [by rewrite app_nil_r | by intros r ?%elem_of_nil].
Qed.

Lemma for_each_extends token l t :
  ∃ evs, (for_each l (one_turn token) t).1 = t ++ evs ∧
         ∀ r, r ∈ requests evs → ∃ p, p ∈ l ∧ deletes token p r.
Proof.
  revert t. induction l as [|p l IH]; intros t.
  - exists []. split; [by rewrite app_nil_r | by intros r ?%elem_of_nil].
  - rewrite for_each_cons.
    destruct (delete_one_extends token p t) as (evs1 & H1 & Hr1).
    destruct (one_turn token p t) as [t' [[]|e]]; simpl in H1; subst t'.
    + destruct (IH (t ++ evs1)) as (evs2 & H2 & Hr2).
      exists (evs1 ++ evs2). rewrite H2, app_assoc. split; [done|].
      intros r. rewrite requests_app, elem_of_app. intros [Hr|Hr].
      * exists p. split; [left | by apply Hr1].
      * destruct (Hr2 _ Hr) as (q & Hq & Hd). exists q. split; [by right | done].
    + exists evs1. split; [done|]. intros r Hr.
      exists p. split; [left | by apply Hr1].
Qed.

(** The loop over records that all have a name: every record is
    attempted, in order, and the loop ends normally. *)
Lemma for_each_attempts token l t :
  Forall has_id l → Forall has_name l →
  ∃ evs, for_each l (one_turn token) t = (t ++ evs, Ok tt) ∧
         Forall2 (deletes token) l (requests evs) ∧
         Forall2 (λ p line, ∃ name pid r, getitem p "name" = Ok name ∧
                    line = outcome_line py_repr name pid r) l (output evs).
Proof.
  intros Hid Hname. revert t.
  induction l as [|p l IH]; intros t.
  - exists []. rewrite app_nil_r. repeat split; constructor.
  - apply Forall_cons in Hid as [[pid Hp] Hid].
    apply Forall_cons in Hname as [[name Hn] Hname].
    rewrite for_each_cons, (delete_one_attempt _ _ _ _ _ Hp Hn).
    destruct (IH Hid Hname (t ++ [Http (delete_request token pid);
      Print (outcome_line py_repr name pid
               (opened (service (requests t) (delete_request token pid))))]))
      as (evs & Hrun & Hreq & Hout).
    eexists (_ :: _ :: evs). rewrite Hrun, <- app_assoc. split; [done|].
    simpl. split; (constructor; [|done]); [by exists pid | by eexists _, _, _].
Qed.


(** The run, step by step: which exception ends it, or else what the loop
    leaves behind. *)
Lemma run_unfold :
  the_run =
    match login_result service with
    | Raise e => ([Http login_request], Raise e)
    | Ok token =>
        let listed := [Http login_request; Http (list_request token)] in
        match listing_body py_repr service token with
        | Raise e => (listed, Raise e)
        | Ok projects =>
            match comprehension projects with
            | Raise e => (listed, Raise e)
            | Ok to_delete =>
                match for_each to_delete (one_turn token)
                        (listed ++ [Print (found_line (length to_delete))]) with
                | (t, Ok _) => (t ++ [Print "Cleanup complete"], Ok tt)
                | (t, Raise e) => (t, Raise e)
                end
            end
        end
    end.
Proof.
  unfold run, main, login_result, listing_body, bind, urlopen, lift, print.
  simpl. destruct (opened (service [] login_request)) as [resp|e]; simpl; [|done].
  destruct (json_load resp) as [login|e]; simpl; [|done].
  destruct (getitem login "token") as [token|e]; simpl; [|done].
  destruct (opened (service [login_request] (list_request token))) as [resp'|e];
    simpl; [|done].
  destruct (json_load resp') as [projects|e]; simpl; [|done].
  destruct (comprehension projects) as [to_delete|e]; simpl; [|done].
  by destruct (for_each to_delete _ _) as [t [[]|e]].
Qed.

Lemma run_login_fails e :
  login_result service = Raise e → the_run = ([Http login_request], Raise e).
Proof. intros H. by rewrite run_unfold, H. Qed.

Lemma run_listing_fails token e :
  login_result service = Ok token →
  listing_body py_repr service token = Raise e →
  the_run = ([Http login_request; Http (list_request token)], Raise e).
Proof. intros H1 H2. by rewrite run_unfold, H1, H2. Qed.

Lemma run_filter_fails token projects e :
  login_result service = Ok token →
  listing_body py_repr service token = Ok projects →
  comprehension projects = Raise e →
  the_run = ([Http login_request; Http (list_request token)], Raise e).
Proof. intros H1 H2 H3. rewrite run_unfold, H1, H2. simpl. by rewrite H3. Qed.

Lemma run_loop token projects to_delete :
  login_result service = Ok token →
  listing_body py_repr service token = Ok projects →
  comprehension projects = Ok to_delete →
  the_run =
    match for_each to_delete (one_turn token)
            [Http login_request; Http (list_request token);
             Print (found_line (length to_delete))] with
    | (t, Ok _) => (t ++ [Print "Cleanup complete"], Ok tt)
    | (t, Raise e) => (t, Raise e)
    end.
Proof. intros H1 H2 H3. rewrite run_unfold, H1, H2. simpl. by rewrite H3. Qed.

(** C4.  A failed login (the request raises, the body is not JSON, or the
    decoded object has no "token") ends the run with that exception after
    the login request alone: no listing, no DELETE, no output.  A failed
    listing (the request raises, or the body is not JSON) ends the run
    with that exception after the login and listing requests alone: no
    DELETE, no output. *)
Theorem fatal_steps_abort_the_run :
  (∀ msg, service [] login_request = Raises msg →
     the_run = ([Http login_request], Raise (RequestError msg))) ∧
  (∀ err, service [] login_request = Responds (Malformed err) →
     the_run = ([Http login_request], Raise (JSONDecodeError err))) ∧
  (∀ d, service [] login_request = Responds (Json (PDict d)) →
     d !! "token" = None →
     the_run = ([Http login_request], Raise (KeyError "token"))) ∧
  (∀ token msg, login_result service = Ok token →
     service [login_request] (list_request token) = Raises msg →
     the_run = ([Http login_request; Http (list_request token)],
            Raise (RequestError msg))) ∧
  (∀ token err, login_result service = Ok token →
     service [login_request] (list_request token) = Responds (Malformed err) →
     the_run = ([Http login_request; Http (list_request token)],
            Raise (JSONDecodeError err))).
Proof.
  repeat split.
  - intros msg H. apply run_login_fails. unfold login_result. by rewrite H.
  - intros err H. apply run_login_fails. unfold login_result. by rewrite H.
  - intros d H Hd. apply run_login_fails. unfold login_result. rewrite H. simpl.
    by rewrite Hd.
  - intros token msg H1 H. apply run_listing_fails; [done|].
    unfold listing_body. by rewrite H.
  - intros token err H1 H. apply run_listing_fails; [done|].
    unfold listing_body. by rewrite H.
Qed.


Lemma outcome_line_not_complete name pid r :
  outcome_line py_repr name pid r ≠ "Cleanup complete".
Proof. by destruct r. Qed.

Lemma kept_have_id projects to_delete :
  comprehension projects = Ok to_delete → Forall has_id to_delete.
Proof.
  intros H%comprehension_kept. eapply Forall_impl; [exact H|].
  intros p (pid & Hp & _). by exists pid.
Qed.

Lemma no_name_KeyError p :
  has_id p → ¬ has_name p → getitem p "name" = Raise (KeyError "name").
Proof.
  intros [pid Hid] Hn. destruct p; try discriminate. simpl.
  destruct (d !! "name") as [name|] eqn:E; [|done].
  exfalso. apply Hn. exists name. simpl. by rewrite E.
Qed.

Lemma non_seeded_all_seed listing : Forall is_seed listing → non_seeded listing = [].
Proof.
  unfold non_seeded. induction 1 as [|p l Hp _ IH]; [done|].
  rewrite filter_cons, decide_False; [done|]. intros Hn. by apply Hn.
Qed.

(** C6.  When every listed project is the seeded one, the run sends the
    login and listing requests and no DELETE, prints the "Found 0" line and
    then "Cleanup complete", and ends normally. *)
Theorem empty_batch_found_0_then_complete token listing :
  login_result service = Ok token →
  listing_body py_repr service token = Ok (PList listing) →
  Forall is_seed listing →
  the_run = ([Http login_request; Http (list_request token);
          Print "Found 0 non-seeded projects to clean up";
          Print "Cleanup complete"], Ok tt).
Proof.
  intros H1 H2 Hseed.
  assert (comprehension (PList listing) = Ok []) as Hc.
  { rewrite <- (non_seeded_all_seed listing Hseed).
    unfold comprehension. simpl. apply keep_non_seeded_total.
    eapply Forall_impl; [exact Hseed|]. intros p Hp. by eexists. }
  by rewrite (run_loop _ _ _ H1 H2 Hc).
Qed.



(** C7.  On the listing Seed, A (p1), B (p2) the comprehension keeps the
    records of p1 and p2 in that order, and the run sends, after the login
    and listing requests, exactly two requests: DELETE /projects/p1, then
    DELETE /projects/p2. *)
Theorem scenario_deletes_p1_then_p2 token :
  login_result service = Ok token →
  listing_body py_repr service token = Ok (PList scenario) →
  comprehension (PList scenario) = Ok [record "p1" "A"; record "p2" "B"] ∧
  requests the_run.1 =
    [login_request; list_request token;
     mkRequest "http://localhost:3002/projects/p1" None
               [("Authorization", "Bearer " +:+ format py_repr token)]
               (Some "DELETE");
     mkRequest "http://localhost:3002/projects/p2" None
               [("Authorization", "Bearer " +:+ format py_repr token)]
               (Some "DELETE")].
Proof.
  intros H1 H2.
  assert (comprehension (PList scenario) = Ok [record "p1" "A"; record "p2" "B"])
    as Hc by (vm_compute; reflexivity).
  split; [done|].
  rewrite (run_loop _ _ _ H1 H2 Hc).
  assert (∀ i n, getitem (record i n) "id" = Ok (PStr i)) as Hid by done.
  assert (∀ i n, getitem (record i n) "name" = Ok (PStr n)) as Hn by done.
  rewrite for_each_cons, (delete_one_attempt _ _ _ _ _ (Hid _ _) (Hn _ _)).
  rewrite for_each_cons, (delete_one_attempt _ _ _ _ _ (Hid _ _) (Hn _ _)).
  cbv beta iota delta [for_each ret fst]. rewrite !requests_app. reflexivity.
Qed.

Lemma outcome_lines_not_complete {A} (P : A → pyval → Prop) (l : list A) lines :
  Forall2 (λ p line, ∃ name pid r, P p name ∧
             line = outcome_line py_repr name pid r) l lines →
  "Cleanup complete" ∉ lines.
Proof.
  induction 1 as [|p line l lines (name & pid & r & _ & ->) _ IH].
  - apply not_elem_of_nil.
  - intros [Heq|Hin]%elem_of_cons; [|by apply IH].
    by eapply outcome_line_not_complete.
Qed.

(** C9.  A kept project always has an id, so only its name can be missing
    when the loop reaches it.  If the kept project X has no name and those
    before it do, the run sends the DELETE requests of the projects before
    X and then ends with KeyError "name": no request goes out for X or for
    any project after it, and "Cleanup complete" is never printed.  A
    listed record without an id ends the run in the comprehension, before
    any DELETE and before any output. *)
Theorem record_without_key_aborts_the_run token projects :
  login_result service = Ok token →
  listing_body py_repr service token = Ok projects →
  (∀ to_delete, comprehension projects = Ok to_delete → Forall has_id to_delete) ∧
  (∀ pre X post,
     comprehension projects = Ok (pre ++ X :: post) →
     Forall has_name pre → ¬ has_name X →
     ∃ evs,
       the_run = ([Http login_request; Http (list_request token);
                   Print (found_line (length (pre ++ X :: post)))] ++ evs,
                  Raise (KeyError "name")) ∧
       Forall2 (deletes token) pre (requests evs) ∧
       Print "Cleanup complete" ∉ the_run.1) ∧
  (∀ listing,
     projects = PList listing → Exists (λ p, ¬ has_id p) listing →
     ∃ e, the_run = ([Http login_request; Http (list_request token)], Raise e)).
Proof.
  intros H1 H2. split; [intros to_delete; apply kept_have_id|]. split.
  - intros pre X post H3 Hn_pre HnX.
    pose proof (kept_have_id _ _ H3) as Hids.
    apply Forall_app in Hids as [Hid_pre Hids].
    apply Forall_cons in Hids as [HidX _].
    assert (∃ evs,
      the_run = ([Http login_request; Http (list_request token);
                  Print (found_line (length (pre ++ X :: post)))] ++ evs,
                 Raise (KeyError "name")) ∧
      Forall2 (deletes token) pre (requests evs) ∧
      "Cleanup complete" ∉ output evs) as (evs & Hrun & Hreq & Hout).
    { rewrite (run_loop _ _ _ H1 H2 H3), for_each_app.
      destruct (for_each_attempts token pre
                  [Http login_request; Http (list_request token);
                   Print (found_line (length (pre ++ X :: post)))]
                  Hid_pre Hn_pre) as (evs & -> & Hreq & Hout).
      destruct HidX as [pid HidX].
      rewrite for_each_cons,
        (delete_one_no_name _ _ _ _ _ HidX (no_name_KeyError X (ex_intro _ pid HidX) HnX)).
      exists evs. split; [done|]. split; [done|].
      by apply (outcome_lines_not_complete
                  (λ p name, getitem p "name" = Ok name) pre). }
    exists evs. split; [done|]. split; [done|].
    rewrite Hrun. simpl. intros Hin.
    apply elem_of_cons in Hin as [?|Hin]; [done|].
    apply elem_of_cons in Hin as [?|Hin]; [done|].
    apply elem_of_cons in Hin as [[= Heq]|Hin].
    apply Hout. apply list_elem_of_omap. by exists (Print "Cleanup complete").
  - intros listing -> Hex.
    destruct (comprehension (PList listing)) as [kept|e] eqn:Hc.
    + exfalso. unfold comprehension in Hc. simpl in Hc.
      apply keep_non_seeded_inv in Hc as [Hall _].
      by apply (Exists_not_Forall has_id listing).
    + exists e. by apply (run_filter_fails _ _ _ H1 H2).
Qed.

(** The requests of a run whose login failed. *)
Lemma run_requests_login_failed e :
  login_result service = Raise e → requests the_run.1 = [login_request].
Proof. intros H. by rewrite (run_login_fails _ H). Qed.

(** The requests of a run whose login succeeded: the login, the listing,
    and DELETE requests of kept projects. *)
Lemma run_requests token :
  login_result service = Ok token →
  ∃ dels, requests the_run.1 = login_request :: list_request token :: dels ∧
    ∀ r, r ∈ dels →
      ∃ projects to_delete p,
        listing_body py_repr service token = Ok projects ∧
        comprehension projects = Ok to_delete ∧
        p ∈ to_delete ∧ deletes token p r.
Proof.
  intros H1.
  destruct (listing_body py_repr service token) as [projects|e] eqn:H2.
  2:{ exists []. rewrite (run_listing_fails _ _ H1 H2).
      split; [done | by intros r ?%elem_of_nil]. }
  destruct (comprehension projects) as [to_delete|e] eqn:H3.
  2:{ exists []. rewrite (run_filter_fails _ _ _ H1 H2 H3).
      split; [done | by intros r ?%elem_of_nil]. }
  rewrite (run_loop _ _ _ H1 H2 H3).
  destruct (for_each_extends token to_delete
              [Http login_request; Http (list_request token);
               Print (found_line (length to_delete))]) as (evs & Hevs & Hreq).
  exists (requests evs). split.
  - destruct (for_each to_delete _ _) as [t [[]|e]]; simpl in Hevs; subst t;
      cbn [fst]; rewrite ?requests_app; simpl; by rewrite ?app_nil_r.
  - intros r Hr. destruct (Hreq _ Hr) as (p & Hp & Hd). by exists projects, to_delete, p.
Qed.

Lemma delete_url_not_login token pid :
  url (delete_request token pid) ≠ url login_request.
Proof.
  unfold delete_request, login_request, BASE. simpl. discriminate.
Qed.

(** A decimal numeral does not start with the letter t. *)
Lemma pretty_N_go_ne_t x s s' : s ≠ "t" +:+ s' → pretty_N_go x s ≠ "t" +:+ s'.
Proof.
  revert s. induction (N.lt_wf_0 x) as [x _ IH]; intros s Hs.
  destruct (decide (x = 0)%N) as [->|Hx]; [by rewrite pretty_N_go_0|].
  rewrite pretty_N_go_step by lia.
  apply IH; [apply N.div_lt; lia|].
  unfold pretty_N_char. by repeat case_match.
Qed.

Lemma pretty_Z_ne_seed (z : Z) : pretty z ≠ SEED_ID.
Proof.
  destruct z as [|x|x].
  - done.
  - unfold pretty, pretty_Z, pretty, pretty_positive, pretty, pretty_N.
    rewrite decide_False by done. by apply pretty_N_go_ne_t.
  - done.
Qed.

(** Only the string "test-project-id" is formatted as "test-project-id",
    provided no [repr] of a float, list or dict reads so. *)
Lemma format_ne_seed pid :
  (∀ v, py_repr v ≠ SEED_ID) → pid ≠ PStr SEED_ID → format py_repr pid ≠ SEED_ID.
Proof.
  intros Hrepr Hne. destruct pid as [|[]| | |s| |]; unfold format; try done.
  - apply pretty_Z_ne_seed.
  - congruence.
Qed.

Lemma delete_url_seed token pid :
  url (delete_request token pid) = BASE +:+ "/projects/" +:+ SEED_ID →
  format py_repr pid = SEED_ID.
Proof.
  unfold delete_request. simpl. intros H.
  by apply (inj (String.app BASE)), (inj (String.app "/projects/")) in H.
Qed.

Lemma delete_url_str token s :
  url (delete_request token (PStr s)) = BASE +:+ "/projects/" +:+ SEED_ID →
  s = SEED_ID.
Proof.
  unfold delete_request, format. simpl. intros H.
  by apply (inj (String.app BASE)), (inj (String.app "/projects/")) in H.
Qed.



End Run.

(** ** Two runs against services that answer alike *)

Lemma outcome_line_same py_repr name pid r1 r2 :
  outcome r1 = outcome r2 →
  outcome_line py_repr name pid (opened r1) = outcome_line py_repr name pid (opened r2).
Proof. destruct r1, r2; simpl; congruence. Qed.

Lemma delete_one_same py_repr s1 s2 token p t :
  (∀ hist r, get_method r = "DELETE" → outcome (s1 hist r) = outcome (s2 hist r)) →
  delete_one py_repr s1 token p t = delete_one py_repr s2 token p t.
Proof.
  intros Hsame.
  destruct (getitem p "id") as [pid|e] eqn:Hid.
  2:{ by rewrite !(delete_one_no_id _ _ _ _ _ _ Hid). }
  destruct (getitem p "name") as [name|e] eqn:Hname.
  2:{ by rewrite !(delete_one_no_name _ _ _ _ _ _ _ Hid Hname). }
  rewrite !(delete_one_attempt _ _ _ _ _ _ _ Hid Hname).
  by rewrite (outcome_line_same py_repr name pid _ _
                (Hsame (requests t) (delete_request py_repr token pid) eq_refl)).
Qed.

Lemma for_each_same py_repr s1 s2 token l t :
  (∀ hist r, get_method r = "DELETE" → outcome (s1 hist r) = outcome (s2 hist r)) →
  for_each l (delete_one py_repr s1 token) t = for_each l (delete_one py_repr s2 token) t.
Proof.
  intros Hsame. revert t. induction l as [|p l IH]; intros t; [done|].
  rewrite !for_each_cons, (delete_one_same py_repr s1 s2 token p t Hsame).
  destruct (delete_one py_repr s2 token p t) as [t' [[]|e]]; [apply IH | done].
Qed.

(** C10.  Two runs whose login steps give the same token (or end with the
    same exception), whose listing steps give the same body (or end with
    the same exception), and whose DELETE requests meet the same outcome
    (success, or the same exception) produce the same trace, hence the
    same sequence of requests and the same sequence of printed lines,
    and end the same way. *)
Theorem same_replies_same_run py_repr s1 s2 :
  login_result s1 = login_result s2 →
  (∀ token, login_result s1 = Ok token →
            listing_body py_repr s1 token = listing_body py_repr s2 token) →
  (∀ hist r, get_method r = "DELETE" → outcome (s1 hist r) = outcome (s2 hist r)) →
  run py_repr s1 = run py_repr s2 ∧
  requests (run py_repr s1).1 = requests (run py_repr s2).1 ∧
  output (run py_repr s1).1 = output (run py_repr s2).1.
Proof.
  intros Hlogin Hlist Hdel.
  assert (run py_repr s1 = run py_repr s2) as Heq; [|by rewrite Heq].
  rewrite !run_unfold, <- Hlogin.
  destruct (login_result s1) as [token|e] eqn:H1; [|done].
  cbv zeta. rewrite <- (Hlist token eq_refl).
  destruct (listing_body py_repr s1 token) as [projects|e]; [|done].
  destruct (comprehension projects) as [to_delete|e]; [|done].
  by rewrite (for_each_same py_repr s1 s2 token to_delete _ Hdel).
Qed.

(** ** The statements at work on the sample services *)

Lemma filter_is_non_seeded_subsequence_witness :
  Forall has_id scenario ∧
  comprehension (PList scenario) = Ok [record "p1" "A"; record "p2" "B"].
Proof.
  assert (Forall has_id scenario) as H by (repeat constructor; by eexists).
  split; [exact H|].
  destruct (filter_is_non_seeded_subsequence scenario H) as [Hc _].
  rewrite Hc. vm_compute. reflexivity.
Defined.

Lemma fatal_steps_abort_the_run_witness :
  run sample_repr locked_service =
    ([Http login_request], Raise (RequestError "HTTP Error 401: Unauthorized")) ∧
  run sample_repr unlistable_service =
    ([Http login_request; Http (list_request sample_repr (PStr "tok"))],
     Raise (JSONDecodeError "Expecting value")).
Proof.
  split.
  - apply (fatal_steps_abort_the_run sample_repr locked_service). reflexivity.
  - apply (fatal_steps_abort_the_run sample_repr unlistable_service);
      reflexivity.
Defined.

Lemma empty_batch_found_0_then_complete_witness :
  run sample_repr seed_only_service =
    ([Http login_request; Http (list_request sample_repr (PStr "tok"));
      Print "Found 0 non-seeded projects to clean up";
      Print "Cleanup complete"], Ok tt).
Proof.
  apply (empty_batch_found_0_then_complete sample_repr seed_only_service
           (PStr "tok") [record "test-project-id" "Seed"]);
    [reflexivity | reflexivity | by repeat constructor].
Defined.

Lemma scenario_deletes_p1_then_p2_witness :
  comprehension (PList scenario) = Ok [record "p1" "A"; record "p2" "B"] ∧
  requests (run sample_repr sample_service).1 =
    [login_request; list_request sample_repr (PStr "tok");
     mkRequest "http://localhost:3002/projects/p1" None
               [("Authorization", "Bearer tok")] (Some "DELETE");
     mkRequest "http://localhost:3002/projects/p2" None
               [("Authorization", "Bearer tok")] (Some "DELETE")].
Proof.
  apply (scenario_deletes_p1_then_p2 sample_repr sample_service (PStr "tok"));
    reflexivity.
Defined.



Lemma record_without_key_aborts_the_run_witness :
  ∃ evs,
    run sample_repr nameless_service =
      ([Http login_request; Http (list_request sample_repr (PStr "tok"));
        Print (found_line 3)] ++ evs, Raise (KeyError "name")) ∧
    Forall2 (deletes sample_repr (PStr "tok")) [record "p1" "A"] (requests evs) ∧
    Print "Cleanup complete" ∉ (run sample_repr nameless_service).1.
Proof.
  destruct (record_without_key_aborts_the_run sample_repr nameless_service
              (PStr "tok")
              (PList [record "p1" "A"; PDict {[ "id" := PStr "p2" ]}; record "p3" "C"])
              eq_refl eq_refl) as (_ & H & _).
  apply (H [record "p1" "A"] (PDict {[ "id" := PStr "p2" ]}) [record "p3" "C"]).
  - vm_compute. reflexivity.
  - repeat constructor. by eexists.
  - intros [name Hn]. vm_compute in Hn. discriminate Hn.
Defined.


Lemma same_replies_same_run_witness :
  run sample_repr sample_service = run sample_repr sample_service_bis ∧
  requests (run sample_repr sample_service).1 =
    requests (run sample_repr sample_service_bis).1 ∧
  output (run sample_repr sample_service).1 =
    output (run sample_repr sample_service_bis).1.
Proof.
  apply (same_replies_same_run sample_repr sample_service sample_service_bis).
  - reflexivity.
  - intros token _. reflexivity.
  - intros hist r _. unfold sample_service, sample_service_bis, scripted.
    destruct hist as [|a [|b hist]]; [reflexivity | reflexivity |].
    destruct (bool_decide _); reflexivity.
Defined.

(** ** The loop, turn by turn *)

Lemma output_app t1 t2 : output (t1 ++ t2) = output t1 ++ output t2.
Proof. apply omap_app. Qed.

Lemma requests_steps steps : requests (steps_events steps) = steps.*1.
Proof. induction steps as [|s steps IH]; [done|]. simpl. by f_equal. Qed.

Lemma output_steps steps : output (steps_events steps) = steps.*2.
Proof. induction steps as [|s steps IH]; [done|]. simpl. by f_equal. Qed.

Section Loop.

Variable py_repr : pyval → string.
Variable service : list Request → Request → reply.

Local Abbreviation list_request := (list_request py_repr).
Local Abbreviation delete_request := (delete_request py_repr).
Local Abbreviation one_turn := (delete_one py_repr service).
Local Abbreviation deletes := (deletes py_repr).
Local Abbreviation reports := (reports py_repr service).
Local Abbreviation the_run := (run py_repr service).

(** The loop over kept projects: it takes one turn per project up to the
    first one without a name, and stops there with KeyError, or takes them
    all and ends normally. *)
Lemma for_each_steps token l t :
  Forall has_id l →
  ∃ steps,
    (for_each l (one_turn token) t).1 = t ++ steps_events steps ∧
    (∀ i s, steps !! i = Some s →
       ∃ p, l !! i = Some p ∧ reports token (requests t ++ (take i steps).*1) p s) ∧
    ((length steps = length l ∧ (for_each l (one_turn token) t).2 = Ok tt) ∨
     (∃ X, l !! length steps = Some X ∧ ¬ has_name X ∧
           (for_each l (one_turn token) t).2 = Raise (KeyError "name"))).
Proof.
  intros Hid. revert t. induction l as [|p l IH]; intros t.
  - exists []. simpl. rewrite app_nil_r. split; [done|]. split; [|by left].
    intros i s Hs. by rewrite lookup_nil in Hs.
  - apply Forall_cons in Hid as [[pid Hp] Hid]. rewrite for_each_cons.
    destruct (getitem p "name") as [name|e] eqn:Hn.
    + rewrite (delete_one_attempt _ _ _ _ _ _ _ Hp Hn).
      set (req := delete_request token pid).
      set (line := outcome_line py_repr name pid (opened (service (requests t) req))).
      destruct (IH Hid (t ++ [Http req; Print line])) as (steps & Htr & Hsteps & Hend).
      exists ((req, line) :: steps). split; [|split].
      * rewrite Htr, <- app_assoc. done.
      * intros [|i] s Hs; simpl in Hs.
        -- injection Hs as <-. exists p. split; [done|].
           exists pid, name. simpl. rewrite app_nil_r.
           repeat (split; [done|]). unfold line.
           by destruct (service (requests t) req).
        -- destruct (Hsteps i s Hs) as (q & Hq & Hrep). exists q. split; [done|].
           rewrite requests_app in Hrep. simpl in Hrep.
           by rewrite <- app_assoc in Hrep.
      * destruct Hend as [[Hlen Hres]|(X & HX & HnX & Hres)].
        -- left. simpl. by rewrite Hlen.
        -- right. by exists X.
    + assert (e = KeyError "name") as ->.
      { assert (¬ has_name p) as Hno by (intros [name Hname]; congruence).
        pose proof (no_name_KeyError p (ex_intro _ pid Hp) Hno). congruence. }
      rewrite (delete_one_no_name _ _ _ _ _ _ _ Hp Hn).
      exists []. simpl. rewrite app_nil_r. split; [done|]. split.
      * intros i s Hs. by rewrite lookup_nil in Hs.
      * right. exists p. split; [done|]. split; [|done].
        intros [name Hname]. congruence.
Qed.

(** A run that reached the loop, turn by turn. *)
Lemma run_steps token projects to_delete :
  login_result service = Ok token →
  listing_body py_repr service token = Ok projects →
  comprehension projects = Ok to_delete →
  ∃ steps,
    the_run.1 = [Http login_request; Http (list_request token);
                 Print (found_line (length to_delete))]
                ++ steps_events steps ++ closing the_run.2 ∧
    (∀ i s, steps !! i = Some s →
       ∃ p, to_delete !! i = Some p ∧
            reports token (login_request :: list_request token :: (take i steps).*1) p s) ∧
    ((length steps = length to_delete ∧ the_run.2 = Ok tt) ∨
     (∃ X, to_delete !! length steps = Some X ∧ ¬ has_name X ∧
           the_run.2 = Raise (KeyError "name"))).
Proof.
  intros H1 H2 H3. rewrite (run_loop _ _ _ _ _ H1 H2 H3).
  destruct (for_each_steps token to_delete
              [Http login_request; Http (list_request token);
               Print (found_line (length to_delete))]
              (kept_have_id _ _ H3)) as (steps & Htr & Hsteps & Hend).
  exists steps.
  destruct (for_each to_delete _ _) as [t res]. simpl in Htr. subst t.
  destruct Hend as [[Hlen Hres]|(X & HX & HnX & Hres)]; simpl in Hres; subst res.
  - split; [by simpl; rewrite <- ?app_assoc|]. split; [done | by left].
  - split; [by simpl; rewrite ?app_nil_r|]. split; [done|]. right. by exists X.
Qed.

Lemma reports_has_name token hist p s : reports token hist p s → has_name p.
Proof. intros (pid & name & _ & Hn & _). by exists name. Qed.

Lemma reports_not_complete token hist p s :
  reports token hist p s → s.2 ≠ "Cleanup complete".
Proof.
  destruct s as [r line]. intros (pid & name & _ & _ & _ & Hline).
  simpl in *. subst line. by destruct (service hist r).
Qed.

Lemma steps_events_print line steps :
  Print line ∈ steps_events steps → ∃ i s, steps !! i = Some s ∧ s.2 = line.
Proof.
  induction steps as [|s steps IH]; simpl; [by intros ?%elem_of_nil|].
  intros [?|[[= ->]|Hin]%elem_of_cons]%elem_of_cons; [done|..].
  - by exists 0, s.
  - destruct (IH Hin) as (i & s' & Hs & Hl). by exists (S i), s'.
Qed.







Lemma comprehension_not_a_list projects :
  is_scalar projects ∨
  (∃ d, projects = PDict d ∧ d ≠ ∅) ∨
  (∃ s, projects = PStr s ∧ s ≠ "") →
  ∃ msg, comprehension projects = Raise (TypeError msg).
Proof.
  intros [Hs|[(d & -> & Hd)|(s & -> & Hs)]]; unfold comprehension.
  - destruct projects; simpl in *; try done; by eexists.
  - simpl. destruct (map_to_list d) as [|[k v] rest] eqn:E.
    + by apply map_to_list_empty_iff in E.
    + by eexists.
  - destruct s as [|c s]; [done|]. by eexists.
Qed.

(** X7.  A listing body that is valid JSON but not an array (a number,
    a boolean, null, a non-empty object such as an envelope around the
    array, or a non-empty string) ends the run with TypeError after the
    login and listing requests: no DELETE is sent and nothing is printed. *)
Theorem listing_not_an_array_aborts token projects :
  login_result service = Ok token →
  listing_body py_repr service token = Ok projects →
  is_scalar projects ∨
  (∃ d, projects = PDict d ∧ d ≠ ∅) ∨
  (∃ s, projects = PStr s ∧ s ≠ "") →
  ∃ msg, the_run = ([Http login_request; Http (list_request token)],
                    Raise (TypeError msg)).
Proof.
  intros H1 H2 Hshape.
  destruct (comprehension_not_a_list projects Hshape) as [msg H3].
  exists msg. by apply (run_filter_fails _ _ _ _ _ H1 H2).
Qed.

(** X8.  An empty JSON object or an empty string as listing body is taken
    for an empty listing: the run prints "Found 0 non-seeded projects to
    clean up" and "Cleanup complete", sends no DELETE and ends normally. *)
Theorem empty_object_is_an_empty_listing token projects :
  login_result service = Ok token →
  listing_body py_repr service token = Ok projects →
  projects = PDict ∅ ∨ projects = PStr "" →
  the_run = ([Http login_request; Http (list_request token);
              Print "Found 0 non-seeded projects to clean up";
              Print "Cleanup complete"], Ok tt).
Proof.
  intros H1 H2 Hshape.
  assert (comprehension projects = Ok []) as H3.
  { destruct Hshape as [->| ->]; unfold comprehension; simpl; [|done].
    by rewrite map_to_list_empty. }
  by rewrite (run_loop _ _ _ _ _ H1 H2 H3).
Qed.

(** X9.  A login body that is valid JSON but not an object ends the run
    with TypeError after the login request alone: no listing, no DELETE,
    no output. *)
Theorem login_body_not_an_object_aborts v :
  service [] login_request = Responds (Json v) →
  ¬ is_object v →
  ∃ msg, the_run = ([Http login_request], Raise (TypeError msg)).
Proof.
  intros Hlogin Hv.
  assert (∃ msg, getitem v "token" = Raise (TypeError msg)) as [msg Hmsg]
    by (destruct v; simpl in *; try done; by eexists).
  exists msg. apply run_login_fails. unfold login_result. rewrite Hlogin. simpl.
  by rewrite Hmsg.
Qed.

(** X10.  Every request of a run goes to a path under BASE, whatever the
    ids in the listing are. *)
Theorem requests_stay_under_base r :
  r ∈ requests the_run.1 → ∃ path, url r = BASE +:+ "/" +:+ path.
Proof.
  intros Hr.
  destruct (login_result service) as [token|e] eqn:H1.
  2:{ rewrite (run_requests_login_failed _ _ e H1) in Hr.
      apply list_elem_of_singleton in Hr as ->. by exists "auth/login". }
  destruct (run_requests py_repr service token H1) as (dels & Hreq & Hdels).
  rewrite Hreq in Hr.
  apply elem_of_cons in Hr as [->|Hr]; [by exists "auth/login"|].
  apply elem_of_cons in Hr as [->|Hr]; [by exists "projects"|].
  destruct (Hdels r Hr) as (_ & _ & _ & _ & _ & _ & pid & _ & ->).
  by exists ("projects/" +:+ format py_repr pid).
Qed.

End Loop.

(** ** The further statements at work on the sample services *)





Lemma listing_not_an_array_aborts_witness :
  ∃ msg, run sample_repr wrapped_service =
           ([Http login_request; Http (list_request sample_repr (PStr "tok"))],
            Raise (TypeError msg)).
Proof.
  apply (listing_not_an_array_aborts sample_repr wrapped_service (PStr "tok")
           (PDict {[ "projects" := PList scenario ]}));
    [reflexivity | reflexivity |].
  right. left. eexists. split; [reflexivity|].
  intros Hempty. apply (f_equal (λ m : gmap string pyval, m !! "projects")) in Hempty.
  vm_compute in Hempty. discriminate Hempty.
Defined.

Lemma empty_object_is_an_empty_listing_witness :
  run sample_repr
      (scripted (token_reply "tok") (Responds (Json (PDict ∅))) (λ _ _, no_content)) =
    ([Http login_request; Http (list_request sample_repr (PStr "tok"));
      Print "Found 0 non-seeded projects to clean up";
      Print "Cleanup complete"], Ok tt).
Proof.
  apply (empty_object_is_an_empty_listing sample_repr _ (PStr "tok") (PDict ∅));
    [reflexivity | reflexivity | by left].
Defined.

Lemma login_body_not_an_object_aborts_witness :
  ∃ msg, run sample_repr array_login_service =
           ([Http login_request], Raise (TypeError msg)).
Proof.
  apply (login_body_not_an_object_aborts sample_repr array_login_service
           (PList [PStr "tok"])); [reflexivity | by intros []].
Defined.

Lemma requests_stay_under_base_witness :
  ∃ path, url (delete_request sample_repr (PStr "tok") (PStr "p2")) =
            BASE +:+ "/" +:+ path.
Proof.
  apply (requests_stay_under_base sample_repr sample_service).
  assert (requests (run sample_repr sample_service).1 =
            [login_request; list_request sample_repr (PStr "tok");
             delete_request sample_repr (PStr "tok") (PStr "p1");
             delete_request sample_repr (PStr "tok") (PStr "p2")]) as ->
    by (vm_compute; reflexivity).
  do 3 apply list_elem_of_further. apply list_elem_of_here.
Defined.
